(** * Organisations and locations: the request handlers of
    [app/api/routes/organisations.py] over a model of the SQLModel session.

    The five handlers are written in a state-and-exception monad over the
    session, one monadic line per Python statement.  The part of the ORM
    they use ([Session.add], [commit], [refresh], [get], [exec] of a
    [select] with [where] clauses) is modelled on two tables held as lists
    of rows in storage order. *)

From Stdlib Require Import ZArith List String Bool Lia Floats.
From ExtLib Require Import Structures.Monad Structures.MonadState Structures.MonadExc.
From ExtLib Require Import Data.Monads.StateMonad Data.Monads.EitherMonad.
Import ListNotations.
Import MonadNotation.
Local Open Scope monad_scope.
Local Open Scope Z_scope.
Local Open Scope string_scope.

(** ** Exceptions *)

Module status.
Definition HTTP_404_NOT_FOUND : Z := 404.
End status.

(** What a handler can raise: FastAPI's [HTTPException], and the ORM's
    complaint about an instance it does not know. *)
Inductive exception : Type :=
| HTTPException (status_code : Z) (detail : string)
| InvalidRequestError (message : string).

(** ** Models and request bodies *)

(** Modelled from the spec: [app.models.Organisation] is not among the
    sources.  An identifier that is null until the store assigns it, and a
    name. *)
Module Organisation.
Record t : Type := { id : option Z; name : string }.
End Organisation.

(** Modelled from the spec: [app.models.Location] is not among the sources.
    Identifier, name, latitude and longitude as binary64 floats, and the
    reference to the owning organisation. *)
Module Location.
Record t : Type :=
  { id : option Z;
    name : string;
    latitude : float;
    longitude : float;
    organisation_id : Z }.
End Location.

(** Modelled from the spec: [app.models.CreateOrganisation] is not among the
    sources.  The body of a create-organisation request: a name. *)
Module CreateOrganisation.
Record t : Type := { name : string }.
End CreateOrganisation.

(** [class CreateLocation(BaseModel)] *)
Module CreateLocation.
Record t : Type :=
  { name : string;
    latitude : float;
    longitude : float;
    organisation_id : Z }.
End CreateLocation.

(** ** The store *)

(** Two tables; a table is the list of its rows in storage order. *)
Record Database : Type :=
  { organisation_table : list Organisation.t;
    location_table : list Location.t }.

Definition empty_database : Database :=
  {| organisation_table := []; location_table := [] |}.

(** Modelled from the spec: the engine that [app.db] binds the session to
    is not among the sources.  Identifiers are assigned by the store and
    unique: the next row of a table whose rows have the identifiers [pks]
    gets one more than the largest in use, 1 in an empty table. *)
Definition next_pk (pks : list (option Z)) : Z :=
  fold_right
    (fun pk acc => match pk with Some k => Z.max (k + 1) acc | None => acc end)
    1 pks.

Definition pk_is (ident : Z) (pk : option Z) : bool :=
  match pk with
  | Some k => Z.eqb k ident
  | None => false
  end.

(** ** The session *)

(** An object the session tracks. *)
Inductive Instance : Type :=
| an_organisation (o : Organisation.t)
| a_location (l : Location.t).

(** What the session needs to know of a mapped class. *)
Class Model (T : Type) : Type :=
  { pk : T -> option Z;
    table : Database -> list T;
    inject : T -> Instance;
    project : Instance -> option T }.

#[global] Instance Model_Organisation : Model Organisation.t :=
  {| pk := Organisation.id;
     table := organisation_table;
     inject := an_organisation;
     project := fun i => match i with an_organisation o => Some o | _ => None end |}.

#[global] Instance Model_Location : Model Location.t :=
  {| pk := Location.id;
     table := location_table;
     inject := a_location;
     project := fun i => match i with a_location l => Some l | _ => None end |}.

(** The session of one request: the database it is bound to and the
    instances added to it, in the order they were added.  An instance whose
    identifier is still null is pending; the handlers never construct one
    with an identifier of their own. *)
Record Session : Type :=
  { db : Database;
    instances : list Instance }.

(** A Python variable bound to an object that the session tracks. *)
Record ref (T : Type) : Type := { slot : nat }.
Arguments slot {T} _.
Arguments Build_ref {T} _.

Definition Request : Type -> Type := eitherT exception (state Session).

(** [session.add(instance)]: the instance is pending in the session from
    now on, and the handler's variable refers to the tracked object. *)
Definition session_add {T} `{Model T} (instance : T) : Request (ref T) :=
  s <- get ;;
  put {| db := db s; instances := instances s ++ [inject instance] |} ;;
  ret {| slot := List.length (instances s) |}.

(** The INSERT of one pending instance: the store assigns the identifier,
    which the instance receives too. *)
Definition flush_instance (i : Instance) (d : Database) : Instance * Database :=
  match i with
  | an_organisation o =>
      match Organisation.id o with
      | Some _ => (i, d)
      | None =>
          let o' := {| Organisation.id :=
                         Some (next_pk (map Organisation.id (organisation_table d)));
                       Organisation.name := Organisation.name o |} in
          (an_organisation o',
           {| organisation_table := organisation_table d ++ [o'];
              location_table := location_table d |})
      end
  | a_location l =>
      match Location.id l with
      | Some _ => (i, d)
      | None =>
          let l' := {| Location.id :=
                         Some (next_pk (map Location.id (location_table d)));
                       Location.name := Location.name l;
                       Location.latitude := Location.latitude l;
                       Location.longitude := Location.longitude l;
                       Location.organisation_id := Location.organisation_id l |} in
          (a_location l',
           {| organisation_table := organisation_table d;
              location_table := location_table d ++ [l'] |})
      end
  end.

Fixpoint flush (pending : list Instance) (d : Database) : list Instance * Database :=
  match pending with
  | [] => ([], d)
  | i :: rest =>
      let '(i', d') := flush_instance i d in
      let '(rest', d'') := flush rest d' in
      (i' :: rest', d'')
  end.

(** [session.commit()]: the pending instances are inserted, in the order
    they were added. *)
Definition session_commit : Request unit :=
  s <- get ;;
  let '(flushed, d) := flush (instances s) (db s) in
  put {| db := d; instances := flushed |}.

(** [session.get(T, ident)]: the row with that primary key, or [None]. *)
Definition session_get (T : Type) `{Model T} (ident : Z) : Request (option T) :=
  s <- get ;;
  ret (find (fun row => pk_is ident (pk row)) (table (db s))).

(** [session.refresh(instance)]: the attributes of the instance as its row
    in the database has them. *)
Definition session_refresh {T} `{Model T} (instance : ref T) : Request T :=
  s <- get ;;
  match nth_error (instances s) (slot instance) with
  | None => raise (InvalidRequestError "Instance is not persistent within this Session")
  | Some i =>
      match project i with
      | None => raise (InvalidRequestError "Instance is not persistent within this Session")
      | Some x =>
          match pk x with
          | None => raise (InvalidRequestError "Instance is not persistent within this Session")
          | Some k =>
              match find (fun row => pk_is k (pk row)) (table (db s)) with
              | None => raise (InvalidRequestError "Could not refresh instance")
              | Some row => ret row
              end
          end
      end
  end.

(** ** Queries *)

(** A [select] over a mapped class with the criteria of its WHERE clause,
    all of which a row has to meet. *)
Record Select (T : Type) : Type := { whereclause : list (T -> bool) }.
Arguments whereclause {T} _.
Arguments Build_Select {T} _.

Definition select (T : Type) : Select T := {| whereclause := [] |}.

Definition where_ {T} (query : Select T) (criteria : list (T -> bool)) : Select T :=
  {| whereclause := whereclause query ++ criteria |}.

Definition meets {T} (query : Select T) (row : T) : bool :=
  forallb (fun criterion => criterion row) (whereclause query).

(** [session.exec(query).all()] *)
Definition session_exec_all {T} `{Model T} (query : Select T) : Request (list T) :=
  s <- get ;;
  ret (filter (meets query) (table (db s))).

(** [column >= bound] and [column <= bound] on floats, as IEEE 754 compares
    them (false when either side is a NaN). *)
Definition float_ge (x bound : float) : bool := PrimFloat.leb bound x.
Definition float_le (x bound : float) : bool := PrimFloat.leb x bound.

(** ** The handlers *)

Definition BoundingBox : Type := float * float * float * float.

(** [POST /create] *)
Definition create_organisation (create_organisation : CreateOrganisation.t)
  : Request Organisation.t :=
  let organisation :=
    {| Organisation.id := None;
       Organisation.name := CreateOrganisation.name create_organisation |} in
  organisation <- session_add organisation ;;
  session_commit ;;
  organisation <- session_refresh organisation ;;
  ret organisation.

(** [GET /] *)
Definition get_organisations : Request (list Organisation.t) :=
  organisations <- session_exec_all (select Organisation.t) ;;
  ret organisations.

(** [GET /{organisation_id}] *)
Definition get_organisation (organisation_id : Z) : Request Organisation.t :=
  organisation <- session_get Organisation.t organisation_id ;;
  match organisation with
  | None =>
      raise (HTTPException status.HTTP_404_NOT_FOUND "Organisation not found")
  | Some organisation => ret organisation
  end.

(** [POST /create/locations] *)
Definition create_location (create_location : CreateLocation.t)
  : Request Location.t :=
  organisation <- session_get Organisation.t
                    (CreateLocation.organisation_id create_location) ;;
  match organisation with
  | None =>
      raise (HTTPException status.HTTP_404_NOT_FOUND "Organisation not found")
  | Some _ =>
      let location :=
        {| Location.id := None;
           Location.name := CreateLocation.name create_location;
           Location.latitude := CreateLocation.latitude create_location;
           Location.longitude := CreateLocation.longitude create_location;
           Location.organisation_id :=
             CreateLocation.organisation_id create_location |} in
      location <- session_add location ;;
      session_commit ;;
      location <- session_refresh location ;;
      ret location
  end.

(** [GET /{organisation_id}/locations].  [if bounding_box:] takes the
    branch for every tuple of four floats, a tuple that is not empty being
    true. *)
Definition get_organisation_locations
    (organisation_id : Z) (bounding_box : option BoundingBox)
  : Request (list Location.t) :=
  let query :=
    where_ (select Location.t)
      [fun l => Z.eqb (Location.organisation_id l) organisation_id] in
  let query :=
    match bounding_box with
    | Some (min_lat, min_lon, max_lat, max_lon) =>
        where_ query
          [fun l => float_ge (Location.latitude l) min_lat;
           fun l => float_le (Location.latitude l) max_lat;
           fun l => float_ge (Location.longitude l) min_lon;
           fun l => float_le (Location.longitude l) max_lon]
    | None => query
    end in
  locations <- session_exec_all query ;;
  match locations with
  | [] =>
      raise (HTTPException status.HTTP_404_NOT_FOUND
               "No locations found for this organisation within the specified bounding box.")
  | _ :: _ => ret locations
  end.

(** Modelled from the spec: [app.db.get_db] is not among the sources.  Each
    request runs in a session of its own on the database, opened when the
    request starts and released when it ends, whether the handler returned
    or raised; what the handler committed stays in the database. *)
Definition get_db {A} (handler : Request A) (d : Database)
  : (exception + A) * Database :=
  let '(result, s) :=
    runState (unEitherT handler) {| db := d; instances := [] |} in
  (result, db s).

(** The outcome of a request is [inl e] when the handler raised [e] and
    [inr a] when it returned [a]. *)

(** ** Vocabulary of the statements *)

Definition not_found (detail : string) : exception :=
  HTTPException status.HTTP_404_NOT_FOUND detail.

Definition no_locations_found : exception :=
  HTTPException 404
    "No locations found for this organisation within the specified bounding box.".

(** The row that [create_organisation] inserts into [d]. *)
Definition new_organisation (body : CreateOrganisation.t) (d : Database)
  : Organisation.t :=
  {| Organisation.id :=
       Some (next_pk (map Organisation.id (organisation_table d)));
     Organisation.name := CreateOrganisation.name body |}.

(** The row that [create_location] inserts into [d]. *)
Definition new_location (body : CreateLocation.t) (d : Database)
  : Location.t :=
  {| Location.id := Some (next_pk (map Location.id (location_table d)));
     Location.name := CreateLocation.name body;
     Location.latitude := CreateLocation.latitude body;
     Location.longitude := CreateLocation.longitude body;
     Location.organisation_id := CreateLocation.organisation_id body |}.

(** The query that [get_organisation_locations] builds. *)
Definition locations_query (organisation_id : Z) (bounding_box : option BoundingBox)
  : Select Location.t :=
  let query :=
    where_ (select Location.t)
      [fun l => Z.eqb (Location.organisation_id l) organisation_id] in
  match bounding_box with
  | Some (min_lat, min_lon, max_lat, max_lon) =>
      where_ query
        [fun l => float_ge (Location.latitude l) min_lat;
         fun l => float_le (Location.latitude l) max_lat;
         fun l => float_ge (Location.longitude l) min_lon;
         fun l => float_le (Location.longitude l) max_lon]
  | None => query
  end.

(** An organisation with the identifier [ident] is stored in [d]. *)
Definition organisation_exists (ident : Z) (d : Database) : Prop :=
  exists o, In o (organisation_table d) /\ Organisation.id o = Some ident.

(** No stored organisation has the identifier [ident]. *)
Definition organisation_absent (ident : Z) (d : Database) : Prop :=
  forall o, In o (organisation_table d) -> Organisation.id o <> Some ident.

(** [x] lies in the closed interval from [lo] to [hi]. *)
Definition in_closed_interval (lo hi x : float) : Prop :=
  PrimFloat.leb lo x = true /\ PrimFloat.leb x hi = true.

(** The location lies in the bounding box, when there is one. *)
Definition in_bounding_box (bounding_box : option BoundingBox) (l : Location.t)
  : Prop :=
  match bounding_box with
  | None => True
  | Some (min_lat, min_lon, max_lat, max_lon) =>
      in_closed_interval min_lat max_lat (Location.latitude l)
      /\ in_closed_interval min_lon max_lon (Location.longitude l)
  end.

Definition in_bounding_boxb (bounding_box : option BoundingBox) (l : Location.t)
  : bool :=
  match bounding_box with
  | None => true
  | Some (min_lat, min_lon, max_lat, max_lon) =>
      (PrimFloat.leb min_lat (Location.latitude l)
       && PrimFloat.leb (Location.latitude l) max_lat)
      && (PrimFloat.leb min_lon (Location.longitude l)
          && PrimFloat.leb (Location.longitude l) max_lon)
  end.

(** The specification's reading of the listing: the Location rows of the
    given organisation that lie in the box, in storage order. *)
Definition locations_matching
    (organisation_id : Z) (bounding_box : option BoundingBox) (d : Database)
  : list Location.t :=
  filter (fun l => Z.eqb (Location.organisation_id l) organisation_id
                   && in_bounding_boxb bounding_box l)
    (location_table d).

(** Every stored location refers to a stored organisation. *)
Definition referential_integrity (d : Database) : Prop :=
  forall l, In l (location_table d) ->
            organisation_exists (Location.organisation_id l) d.

(** Every row has an identifier and no two rows of a table share one. *)
Definition well_keyed (d : Database) : Prop :=
  NoDup (map Organisation.id (organisation_table d))
  /\ NoDup (map Location.id (location_table d))
  /\ ~ In None (map Organisation.id (organisation_table d))
  /\ ~ In None (map Location.id (location_table d)).

(** A request to one of the five endpoints. *)
Inductive Operation : Type :=
| POST_create (body : CreateOrganisation.t)
| GET_all
| GET_organisation (organisation_id : Z)
| POST_create_locations (body : CreateLocation.t)
| GET_locations (organisation_id : Z) (bounding_box : option BoundingBox).

(** The store after the request has been served. *)
Definition serve (op : Operation) (d : Database) : Database :=
  match op with
  | POST_create body => snd (get_db (create_organisation body) d)
  | GET_all => snd (get_db get_organisations d)
  | GET_organisation organisation_id =>
      snd (get_db (get_organisation organisation_id) d)
  | POST_create_locations body => snd (get_db (create_location body) d)
  | GET_locations organisation_id bounding_box =>
      snd (get_db (get_organisation_locations organisation_id bounding_box) d)
  end.

(** The stores reached from the empty one by serving requests. *)
Inductive reachable : Database -> Prop :=
| reachable_empty : reachable empty_database
| reachable_serve (op : Operation) (d : Database) :
    reachable d -> reachable (serve op d).

(** ** Stores and requests used as concrete inputs *)

Definition acme : Organisation.t :=
  {| Organisation.id := Some 1; Organisation.name := "Acme" |}.

Definition hq : Location.t :=
  {| Location.id := Some 1;
     Location.name := "HQ";
     Location.latitude := 51.5%float;
     Location.longitude := (-0.125)%float;
     Location.organisation_id := 1 |}.

(** One organisation, no location. *)
Definition acme_database : Database :=
  {| organisation_table := [acme]; location_table := [] |}.

(** One organisation with one location. *)
Definition hq_database : Database :=
  {| organisation_table := [acme]; location_table := [hq] |}.

Definition create_acme : CreateOrganisation.t :=
  {| CreateOrganisation.name := "Acme" |}.

Definition hq_of_organisation_1 : CreateLocation.t :=
  {| CreateLocation.name := "HQ";
     CreateLocation.latitude := 51.5%float;
     CreateLocation.longitude := (-0.125)%float;
     CreateLocation.organisation_id := 1 |}.

Definition hq_of_organisation_2 : CreateLocation.t :=
  {| CreateLocation.name := "HQ";
     CreateLocation.latitude := 51.5%float;
     CreateLocation.longitude := (-0.125)%float;
     CreateLocation.organisation_id := 2 |}.

(** Coordinates that are no place on Earth. *)
Definition far_away : CreateLocation.t :=
  {| CreateLocation.name := "Nowhere";
     CreateLocation.latitude := 1000%float;
     CreateLocation.longitude := (-500.5)%float;
     CreateLocation.organisation_id := 1 |}.

(** A box that has the HQ in it, and one that has not. *)
Definition around_hq : BoundingBox := (0, -1, 100, 10)%float.
Definition away_from_hq : BoundingBox := (0, 0, 10, 10)%float.

(** ** Sequences of requests *)

(** The store after the requests [ops], served in order. *)
Fixpoint serve_all (ops : list Operation) (d : Database) : Database :=
  match ops with
  | [] => d
  | op :: rest => serve_all rest (serve op d)
  end.



(** The requests that go by GET. *)
Definition is_GET (op : Operation) : bool :=
  match op with
  | GET_all | GET_organisation _ | GET_locations _ _ => true
  | POST_create _ | POST_create_locations _ => false
  end.

Definition is_POST_create (op : Operation) : bool :=
  match op with
  | POST_create _ => true
  | _ => false
  end.

Definition is_POST_create_locations (op : Operation) : bool :=
  match op with
  | POST_create_locations _ => true
  | _ => false
  end.

(** The box that is the one point where the location lies. *)
Definition point_of (l : Location.t) : BoundingBox :=
  (Location.latitude l, Location.longitude l,
   Location.latitude l, Location.longitude l).

(** ** Tables and their keys *)

Lemma next_pk_above (pks : list (option Z)) (k : Z) :
  In (Some k) pks -> k < next_pk pks.
Proof.
  induction pks as [| [j |] pks IH]; simpl; intros Hin.
  - contradiction.
  - destruct Hin as [E | Hin].
    + injection E as ->. lia.
    + specialize (IH Hin). lia.
  - destruct Hin as [E | Hin]; [discriminate | auto].
Qed.

Lemma next_pk_fresh (pks : list (option Z)) : ~ In (Some (next_pk pks)) pks.
Proof.
  intros Hin. apply next_pk_above in Hin. lia.
Qed.

Lemma pk_is_true (ident : Z) (p : option Z) :
  pk_is ident p = true <-> p = Some ident.
Proof.
  destruct p as [k |]; simpl.
  - rewrite Z.eqb_eq. split; [intros -> | intros [= ->]]; reflexivity.
  - split; discriminate.
Qed.

Section Rows.

Context {T : Type}.
Variable key : T -> option Z.

Lemma find_next_pk (rows : list T) :
  find (fun row => pk_is (next_pk (map key rows)) (key row)) rows = None.
Proof.
  destruct (find _ rows) as [row |] eqn:E; [| reflexivity].
  apply find_some in E. destruct E as [Hin Hpk].
  apply pk_is_true in Hpk.
  apply (in_map key) in Hin. rewrite Hpk in Hin.
  destruct (next_pk_fresh _ Hin).
Qed.

Lemma find_app (f : T -> bool) (l1 l2 : list T) :
  find f (l1 ++ l2) =
  match find f l1 with Some x => Some x | None => find f l2 end.
Proof.
  induction l1 as [| x l1 IH]; simpl; [reflexivity |].
  destruct (f x); [reflexivity | exact IH].
Qed.

Lemma filter_all (f : T -> bool) (l : list T) :
  (forall x, f x = true) -> filter f l = l.
Proof.
  intros Hf. induction l as [| x l IH]; simpl; [reflexivity |].
  rewrite Hf, IH. reflexivity.
Qed.

Lemma unique_pk_row (rows : list T) (a b : T) :
  NoDup (map key rows) -> In a rows -> In b rows -> key a = key b -> a = b.
Proof.
  induction rows as [| r rows IH]; simpl; intros Hnd Ha Hb Hk;
    [contradiction |].
  inversion Hnd as [| k ks Hnotin Hnd']; subst.
  destruct Ha as [-> | Ha], Hb as [-> | Hb].
  - reflexivity.
  - exfalso. apply Hnotin. rewrite Hk. apply in_map. exact Hb.
  - exfalso. apply Hnotin. rewrite <- Hk. apply in_map. exact Ha.
  - apply IH; assumption.
Qed.

(** A row appended under the next key keeps the keys of the table
    distinct and present. *)
Lemma append_keeps_keys (rows : list T) (row : T) :
  key row = Some (next_pk (map key rows)) ->
  NoDup (map key rows) -> ~ In None (map key rows) ->
  NoDup (map key (rows ++ [row])) /\ ~ In None (map key (rows ++ [row])).
Proof.
  intros Hkey Hnd Hsome. rewrite map_app. simpl. rewrite Hkey. split.
  - apply NoDup_app; [exact Hnd | repeat constructor; auto |].
    intros p Hin [<- | []]. destruct (next_pk_fresh _ Hin).
  - intros Hin. apply in_app_or in Hin.
    destruct Hin as [Hin | [E | []]]; [auto | discriminate].
Qed.

End Rows.

Lemma find_organisation_absent (ident : Z) (d : Database) :
  organisation_absent ident d ->
  find (fun o => pk_is ident (Organisation.id o)) (organisation_table d) = None.
Proof.
  intros Habs.
  destruct (find _ (organisation_table d)) as [o |] eqn:E; [| reflexivity].
  apply find_some in E. destruct E as [Hin Hpk].
  apply pk_is_true in Hpk. destruct (Habs o Hin Hpk).
Qed.

Lemma find_organisation_exists (ident : Z) (d : Database) :
  organisation_exists ident d ->
  exists o,
    find (fun o => pk_is ident (Organisation.id o)) (organisation_table d) = Some o
    /\ In o (organisation_table d) /\ Organisation.id o = Some ident.
Proof.
  intros [o [Hin Hid]].
  destruct (find (fun o => pk_is ident (Organisation.id o)) (organisation_table d))
    as [o' |] eqn:E.
  - exists o'. apply find_some in E. destruct E as [Hin' Hpk].
    apply pk_is_true in Hpk. auto.
  - apply find_none with (x := o) in E; [| exact Hin].
    rewrite Hid in E. simpl in E. rewrite Z.eqb_refl in E. discriminate.
Qed.

(** ** What each request does, as one equation per handler *)

Lemma get_organisations_run (d : Database) :
  get_db get_organisations d = (inr (organisation_table d), d).
Proof.
  unfold get_db, get_organisations, session_exec_all. simpl.
  rewrite filter_all by reflexivity. reflexivity.
Qed.

Lemma get_organisation_run (organisation_id : Z) (d : Database) :
  get_db (get_organisation organisation_id) d =
  (match find (fun o => pk_is organisation_id (Organisation.id o))
           (organisation_table d) with
   | Some organisation => inr organisation
   | None => inl (not_found "Organisation not found")
   end, d).
Proof.
  unfold get_db, get_organisation, session_get. simpl.
  destruct (find _ (organisation_table d)); reflexivity.
Qed.

Lemma create_organisation_run (body : CreateOrganisation.t) (d : Database) :
  get_db (create_organisation body) d =
  (inr (new_organisation body d),
   {| organisation_table := organisation_table d ++ [new_organisation body d];
      location_table := location_table d |}).
Proof.
  unfold get_db, create_organisation, session_add, session_commit,
    session_refresh.
  simpl. rewrite find_app, find_next_pk. simpl.
  rewrite Z.eqb_refl. reflexivity.
Qed.

Lemma create_location_run (body : CreateLocation.t) (d : Database) :
  get_db (create_location body) d =
  match find (fun o => pk_is (CreateLocation.organisation_id body)
                         (Organisation.id o)) (organisation_table d) with
  | None => (inl (not_found "Organisation not found"), d)
  | Some _ =>
      (inr (new_location body d),
       {| organisation_table := organisation_table d;
          location_table := location_table d ++ [new_location body d] |})
  end.
Proof.
  unfold get_db, create_location, session_get. simpl.
  destruct (find _ (organisation_table d)); [| reflexivity].
  unfold session_add, session_commit, session_refresh.
  simpl. rewrite find_app, find_next_pk. simpl.
  rewrite Z.eqb_refl. reflexivity.
Qed.

Lemma get_organisation_locations_run
    (organisation_id : Z) (bounding_box : option BoundingBox) (d : Database) :
  get_db (get_organisation_locations organisation_id bounding_box) d =
  (match filter (meets (locations_query organisation_id bounding_box))
           (location_table d) with
   | [] => inl no_locations_found
   | locations => inr locations
   end, d).
Proof.
  unfold get_db, get_organisation_locations, session_exec_all. simpl.
  fold (locations_query organisation_id bounding_box).
  destruct (filter _ (location_table d)); reflexivity.
Qed.

(** ** The query of the listing against the specification's reading *)

Lemma in_bounding_boxb_true (bounding_box : option BoundingBox) (l : Location.t) :
  in_bounding_boxb bounding_box l = true <-> in_bounding_box bounding_box l.
Proof.
  destruct bounding_box as [[[[min_lat min_lon] max_lat] max_lon] |]; simpl.
  - unfold in_closed_interval. rewrite !andb_true_iff. reflexivity.
  - split; auto.
Qed.

Lemma in_locations_matching
    (organisation_id : Z) (bounding_box : option BoundingBox) (d : Database)
    (l : Location.t) :
  In l (locations_matching organisation_id bounding_box d) <->
  In l (location_table d)
  /\ Location.organisation_id l = organisation_id
  /\ in_bounding_box bounding_box l.
Proof.
  unfold locations_matching.
  rewrite filter_In, andb_true_iff, Z.eqb_eq, in_bounding_boxb_true.
  reflexivity.
Qed.

Lemma meets_locations_query
    (organisation_id : Z) (bounding_box : option BoundingBox) (l : Location.t) :
  meets (locations_query organisation_id bounding_box) l =
  Z.eqb (Location.organisation_id l) organisation_id
  && in_bounding_boxb bounding_box l.
Proof.
  destruct bounding_box as [[[[min_lat min_lon] max_lat] max_lon] |];
    unfold meets, float_ge, float_le; simpl.
  - rewrite andb_true_r, !andb_assoc. reflexivity.
  - reflexivity.
Qed.

Lemma query_selects_matching
    (organisation_id : Z) (bounding_box : option BoundingBox) (d : Database) :
  filter (meets (locations_query organisation_id bounding_box)) (location_table d) =
  locations_matching organisation_id bounding_box d.
Proof.
  unfold locations_matching. apply filter_ext. intros l.
  apply meets_locations_query.
Qed.

Lemma get_organisation_locations_outcome
    (organisation_id : Z) (bounding_box : option BoundingBox) (d : Database) :
  get_db (get_organisation_locations organisation_id bounding_box) d =
  (match locations_matching organisation_id bounding_box d with
   | [] => inl no_locations_found
   | locations => inr locations
   end, d).
Proof.
  rewrite get_organisation_locations_run, query_selects_matching. reflexivity.
Qed.

Lemma no_location_of_organisation
    (organisation_id : Z) (bounding_box : option BoundingBox) (d : Database) :
  (forall l, In l (location_table d) ->
             Location.organisation_id l <> organisation_id) ->
  locations_matching organisation_id bounding_box d = [].
Proof.
  intros Hno.
  destruct (locations_matching organisation_id bounding_box d) as [| l ls] eqn:E;
    [reflexivity |].
  assert (Hin : In l (locations_matching organisation_id bounding_box d))
    by (rewrite E; left; reflexivity).
  apply in_locations_matching in Hin. destruct Hin as [Hin [Hid _]].
  destruct (Hno l Hin Hid).
Qed.

(** ** What serving a request preserves *)

Lemma serve_preserves_integrity (op : Operation) (d : Database) :
  referential_integrity d -> referential_integrity (serve op d).
Proof.
  intros Hri. destruct op as [body | | ident | body | ident bounding_box];
    cbn [serve].
  - rewrite create_organisation_run. cbn [snd].
    intros l Hin. cbn [location_table] in Hin.
    destruct (Hri l Hin) as [o [Ho Hid]].
    exists o. cbn [organisation_table]. split; [| exact Hid].
    apply in_or_app. left. exact Ho.
  - rewrite get_organisations_run. exact Hri.
  - rewrite get_organisation_run. exact Hri.
  - rewrite create_location_run.
    destruct (find _ (organisation_table d)) as [o |] eqn:E; cbn [snd];
      [| exact Hri].
    intros l Hin. cbn [location_table] in Hin.
    apply in_app_or in Hin. destruct Hin as [Hin | [<- | []]].
    + exact (Hri l Hin).
    + apply find_some in E. destruct E as [Ho Hpk].
      apply pk_is_true in Hpk. exists o. split; assumption.
  - rewrite get_organisation_locations_run. exact Hri.
Qed.

Lemma serve_preserves_keys (op : Operation) (d : Database) :
  well_keyed d -> well_keyed (serve op d).
Proof.
  intros (Ho & Hl & Hos & Hls).
  destruct op as [body | | ident | body | ident bounding_box]; cbn [serve].
  - rewrite create_organisation_run. unfold well_keyed. cbn.
    destruct (append_keeps_keys Organisation.id (organisation_table d)
                (new_organisation body d) eq_refl Ho Hos) as [Hnd Hsome].
    repeat split; assumption.
  - rewrite get_organisations_run. repeat split; assumption.
  - rewrite get_organisation_run. repeat split; assumption.
  - rewrite create_location_run.
    destruct (find _ (organisation_table d)); [| repeat split; assumption].
    unfold well_keyed. cbn.
    destruct (append_keeps_keys Location.id (location_table d)
                (new_location body d) eq_refl Hl Hls) as [Hnd Hsome].
    repeat split; assumption.
  - rewrite get_organisation_locations_run. repeat split; assumption.
Qed.

(** Identifiers are unique and never null in the stores the service
    reaches. *)
Lemma reachable_well_keyed (d : Database) : reachable d -> well_keyed d.
Proof.
  induction 1 as [| op d _ IH].
  - repeat split; simpl; auto using NoDup_nil.
  - apply serve_preserves_keys. exact IH.
Qed.

(** ** The scenarios of the specification, run *)

Example create_acme_run :
  get_db (create_organisation create_acme) empty_database =
  (inr acme, acme_database).
Proof. reflexivity. Qed.

Example create_hq_run :
  get_db (create_location hq_of_organisation_1) acme_database =
  (inr hq, hq_database).
Proof. reflexivity. Qed.

Example list_none_run :
  get_db get_organisations empty_database = (inr [], empty_database).
Proof. reflexivity. Qed.

Example get_unused_identifier_run :
  get_db (get_organisation 9223372036854775807) acme_database =
  (inl (HTTPException 404 "Organisation not found"), acme_database).
Proof. reflexivity. Qed.

Example list_around_hq_run :
  get_db (get_organisation_locations 1 (Some around_hq)) hq_database =
  (inr [hq], hq_database).
Proof. reflexivity. Qed.

Example list_away_from_hq_run :
  get_db (get_organisation_locations 1 (Some away_from_hq)) hq_database =
  (inl no_locations_found, hq_database).
Proof. reflexivity. Qed.

(** Both ends of the box belong to it. *)
Example list_on_the_edge_run :
  get_db (get_organisation_locations 1
            (Some (51.5, -0.125, 51.5, -0.125)%float)) hq_database =
  (inr [hq], hq_database).
Proof. reflexivity. Qed.

(** ** The claims *)

(** Membership in a table that is written out. *)
Ltac stored := simpl; repeat (first [left; reflexivity | right]).

(** A statement about every row of a table that is written out. *)
Ltac each_row :=
  let row := fresh "row" in
  let Hin := fresh "Hin" in
  intros row Hin; simpl in Hin;
  repeat (destruct Hin as [<- | Hin]; [try discriminate |]);
  try contradiction.

(** C1.  If no Organisation row has the identifier that a create-location
    request names, [create_location] raises the 404 exception
    "Organisation not found" and the store after the request is the store
    before it: no Location row was persisted. *)
Theorem create_location_unknown_organisation
    (d : Database) (body : CreateLocation.t) :
  organisation_absent (CreateLocation.organisation_id body) d ->
  get_db (create_location body) d =
  (inl (HTTPException 404 "Organisation not found"), d).
Proof.
  intros Habs. rewrite create_location_run.
  rewrite (find_organisation_absent _ _ Habs). reflexivity.
Qed.

Lemma create_location_unknown_organisation_witness :
  organisation_absent 2 acme_database /\
  get_db (create_location hq_of_organisation_2) acme_database =
  (inl (HTTPException 404 "Organisation not found"), acme_database).
Proof.
  assert (H : organisation_absent 2 acme_database) by each_row.
  split; [exact H |].
  apply (create_location_unknown_organisation acme_database hq_of_organisation_2).
  exact H.
Defined.

(** C2, as the code has it.  When at least one Location row has the given
    organisation identifier and, if a box is supplied, a latitude in
    [min_lat, max_lat] and a longitude in [min_lon, max_lon], both ends
    included, [get_organisation_locations] returns exactly these rows, in
    storage order, and leaves the store as it was.  What it does when no
    row matches is the subject of C3. *)
Theorem get_organisation_locations_matching
    (d : Database) (organisation_id : Z) (bounding_box : option BoundingBox) :
  locations_matching organisation_id bounding_box d <> [] ->
  get_db (get_organisation_locations organisation_id bounding_box) d =
  (inr (locations_matching organisation_id bounding_box d), d)
  /\ (forall l,
         In l (locations_matching organisation_id bounding_box d) <->
         In l (location_table d)
         /\ Location.organisation_id l = organisation_id
         /\ in_bounding_box bounding_box l).
Proof.
  intros Hne. split.
  - rewrite get_organisation_locations_outcome.
    destruct (locations_matching organisation_id bounding_box d);
      [contradiction | reflexivity].
  - intros l. apply in_locations_matching.
Qed.

Lemma get_organisation_locations_matching_witness :
  locations_matching 1 (Some around_hq) hq_database <> [] /\
  get_db (get_organisation_locations 1 (Some around_hq)) hq_database =
  (inr [hq], hq_database).
Proof.
  assert (H : locations_matching 1 (Some around_hq) hq_database <> []).
  { vm_compute. discriminate. }
  split; [exact H |].
  exact (proj1 (get_organisation_locations_matching hq_database 1
                  (Some around_hq) H)).
Defined.

(** C2 as stated fails where no row matches: without a box on an
    organisation that has no location, and with a box that has none of the
    organisation's locations in it, the handler raises where the claim has
    it return the matching rows, that is, the empty list. *)
Lemma get_organisation_locations_nothing_matching :
  fst (get_db (get_organisation_locations 1 None) acme_database) <>
  inr (locations_matching 1 None acme_database)
  /\ fst (get_db (get_organisation_locations 1 (Some away_from_hq)) hq_database) <>
     inr (locations_matching 1 (Some away_from_hq) hq_database).
Proof.
  split; vm_compute; discriminate.
Qed.

(** C3.  [get_organisation_locations] raises if and only if no row
    matches, and what it raises is always the same 404 exception.  Its
    outcome depends on the Location table alone: the Organisation table is
    never consulted.  In particular it raises that one exception both when
    no organisation with the identifier is stored (in a store whose
    locations refer to stored organisations) and when the organisation is
    stored but has no location. *)
Theorem get_organisation_locations_404_iff_empty
    (d : Database) (organisation_id : Z) (bounding_box : option BoundingBox) :
  ((exists e,
       fst (get_db (get_organisation_locations organisation_id bounding_box) d) =
       inl e)
   <-> locations_matching organisation_id bounding_box d = [])
  /\ (forall e,
         fst (get_db (get_organisation_locations organisation_id bounding_box) d) =
         inl e ->
         e = HTTPException 404
               "No locations found for this organisation within the specified bounding box.")
  /\ (forall d',
         location_table d' = location_table d ->
         fst (get_db (get_organisation_locations organisation_id bounding_box) d') =
         fst (get_db (get_organisation_locations organisation_id bounding_box) d))
  /\ (referential_integrity d ->
      organisation_absent organisation_id d ->
      fst (get_db (get_organisation_locations organisation_id bounding_box) d) =
      inl no_locations_found)
  /\ (organisation_exists organisation_id d ->
      (forall l, In l (location_table d) ->
                 Location.organisation_id l <> organisation_id) ->
      fst (get_db (get_organisation_locations organisation_id bounding_box) d) =
      inl no_locations_found).
Proof.
  repeat split.
  - intros [e He]. rewrite get_organisation_locations_outcome in He.
    destruct (locations_matching organisation_id bounding_box d);
      [reflexivity | discriminate].
  - intros E. rewrite get_organisation_locations_outcome, E.
    eexists. reflexivity.
  - intros e He. rewrite get_organisation_locations_outcome in He.
    destruct (locations_matching organisation_id bounding_box d);
      [| discriminate].
    injection He as <-. reflexivity.
  - intros d' Htable. rewrite !get_organisation_locations_outcome.
    unfold locations_matching. rewrite Htable. reflexivity.
  - intros Hri Habs.
    rewrite get_organisation_locations_outcome, no_location_of_organisation;
      [reflexivity |].
    intros l Hin Hid. destruct (Hri l Hin) as [o [Ho Hido]].
    apply (Habs o Ho). rewrite Hido, Hid. reflexivity.
  - intros _ Hno.
    rewrite get_organisation_locations_outcome, no_location_of_organisation;
      [reflexivity | exact Hno].
Qed.

Lemma get_organisation_locations_404_iff_empty_witness :
  fst (get_db (get_organisation_locations 2 None) hq_database) =
  inl no_locations_found
  /\ fst (get_db (get_organisation_locations 1 None) acme_database) =
     inl no_locations_found
  /\ fst (get_db (get_organisation_locations 1 (Some away_from_hq)) hq_database) =
     inl no_locations_found.
Proof.
  split; [| split].
  - destruct (get_organisation_locations_404_iff_empty hq_database 2 None)
      as (_ & _ & _ & Habsent & _).
    apply Habsent.
    + each_row. exists acme. split; [stored | reflexivity].
    + each_row.
  - destruct (get_organisation_locations_404_iff_empty acme_database 1 None)
      as (_ & _ & _ & _ & Hbare).
    apply Hbare.
    + exists acme. split; [stored | reflexivity].
    + each_row.
  - destruct (get_organisation_locations_404_iff_empty hq_database 1
                (Some away_from_hq)) as ([_ Hraise] & Hsame & _).
    destruct (Hraise eq_refl) as [e He].
    rewrite He. rewrite (Hsame e He). reflexivity.
Defined.

(** C4.  In a store that has the organisation of the request and no
    location of it yet, [create_location] followed by
    [get_organisation_locations] for that organisation, without a box,
    returns the list of exactly the one location just created, with the
    name, latitude, longitude and organisation reference of the request. *)
Theorem create_location_then_list (d : Database) (body : CreateLocation.t) :
  organisation_exists (CreateLocation.organisation_id body) d ->
  (forall l, In l (location_table d) ->
             Location.organisation_id l <> CreateLocation.organisation_id body) ->
  exists created,
    fst (get_db (create_location body) d) = inr created
    /\ fst (get_db (get_organisation_locations
                      (CreateLocation.organisation_id body) None)
              (snd (get_db (create_location body) d))) = inr [created]
    /\ Location.name created = CreateLocation.name body
    /\ Location.latitude created = CreateLocation.latitude body
    /\ Location.longitude created = CreateLocation.longitude body
    /\ Location.organisation_id created = CreateLocation.organisation_id body.
Proof.
  intros Hex Hno. apply find_organisation_exists in Hex.
  destruct Hex as [o [E _]].
  exists (new_location body d).
  rewrite create_location_run, E. cbn [fst snd].
  repeat split.
  rewrite get_organisation_locations_outcome. unfold locations_matching.
  cbn [location_table]. rewrite filter_app.
  fold (locations_matching (CreateLocation.organisation_id body) None d).
  rewrite (no_location_of_organisation _ None d Hno).
  simpl. rewrite Z.eqb_refl. reflexivity.
Qed.

Lemma create_location_then_list_witness :
  fst (get_db (create_location hq_of_organisation_1) acme_database) = inr hq
  /\ fst (get_db (get_organisation_locations 1 None)
            (snd (get_db (create_location hq_of_organisation_1) acme_database))) =
     inr [hq].
Proof.
  destruct (create_location_then_list acme_database hq_of_organisation_1)
    as [created [Hcreated [Hlist _]]].
  - exists acme. split; [stored | reflexivity].
  - each_row.
  - assert (E : created = hq).
    { vm_compute in Hcreated. injection Hcreated as <-. reflexivity. }
    rewrite E in Hlist. split; [reflexivity | exact Hlist].
Defined.

(** C5.  [get_organisation] returns an Organisation row with the requested
    identifier when one is stored (the row itself when identifiers are
    unique in the table), raises the 404 exception with the message
    "Organisation not found" when none is, and leaves the store as it was
    in both cases. *)
Theorem get_organisation_found_or_404 (d : Database) (organisation_id : Z) :
  (forall o,
      In o (organisation_table d) ->
      Organisation.id o = Some organisation_id ->
      exists found,
        fst (get_db (get_organisation organisation_id) d) = inr found
        /\ In found (organisation_table d)
        /\ Organisation.id found = Some organisation_id
        /\ (NoDup (map Organisation.id (organisation_table d)) -> found = o))
  /\ (organisation_absent organisation_id d ->
      fst (get_db (get_organisation organisation_id) d) =
      inl (HTTPException 404 "Organisation not found"))
  /\ snd (get_db (get_organisation organisation_id) d) = d.
Proof.
  rewrite get_organisation_run. cbn [fst snd]. repeat split.
  - intros o Hin Hid.
    destruct (find_organisation_exists organisation_id d)
      as [found [E [Hin' Hid']]].
    { exists o. auto. }
    exists found. rewrite E. repeat split; auto.
    intros Hnd. apply (unique_pk_row Organisation.id (organisation_table d)); auto.
    congruence.
  - intros Habs. rewrite (find_organisation_absent _ _ Habs). reflexivity.
Qed.

Lemma get_organisation_found_or_404_witness :
  (exists found,
      fst (get_db (get_organisation 1) acme_database) = inr found
      /\ In found (organisation_table acme_database)
      /\ Organisation.id found = Some 1
      /\ (NoDup (map Organisation.id (organisation_table acme_database)) ->
          found = acme))
  /\ fst (get_db (get_organisation 2) acme_database) =
     inl (HTTPException 404 "Organisation not found").
Proof.
  split.
  - apply (proj1 (get_organisation_found_or_404 acme_database 1) acme).
    + stored.
    + reflexivity.
  - apply (proj1 (proj2 (get_organisation_found_or_404 acme_database 2))).
    each_row.
Defined.

(** C6.  For every store and every name, the empty one and one already in
    use included, [create_organisation] returns an organisation with that
    name and an identifier [Some ident] that no row stored before has; the
    store afterwards is the store before with this one row added to the
    Organisation table; and [get_organisation ident] on the store
    afterwards returns that row, so the same name. *)
Theorem create_organisation_then_get (d : Database) (body : CreateOrganisation.t) :
  exists ident,
    let row := {| Organisation.id := Some ident;
                  Organisation.name := CreateOrganisation.name body |} in
    get_db (create_organisation body) d =
    (inr row,
     {| organisation_table := organisation_table d ++ [row];
        location_table := location_table d |})
    /\ organisation_absent ident d
    /\ fst (get_db (get_organisation ident)
              (snd (get_db (create_organisation body) d))) = inr row.
Proof.
  exists (next_pk (map Organisation.id (organisation_table d))).
  cbv zeta. rewrite create_organisation_run. repeat split.
  - intros o Hin Hid. apply (in_map Organisation.id) in Hin.
    rewrite Hid in Hin. destruct (next_pk_fresh _ Hin).
  - rewrite get_organisation_run. cbn [fst snd organisation_table].
    rewrite find_app, find_next_pk. simpl. rewrite Z.eqb_refl. reflexivity.
Qed.

(** C7.  [get_organisations] returns every row of the Organisation table,
    in storage order, and changes nothing; on a store without organisations
    it returns the empty list, not an exception. *)
Theorem get_organisations_all (d : Database) :
  get_db get_organisations d = (inr (organisation_table d), d)
  /\ (forall locations,
         fst (get_db get_organisations
                {| organisation_table := []; location_table := locations |}) =
         inr []).
Proof.
  split.
  - apply get_organisations_run.
  - intros locations. rewrite get_organisations_run. reflexivity.
Qed.

(** C8.  Neither [get_organisations] nor [get_organisation] changes the
    store, so running either a second time on the store the first run left
    gives the same outcome: the same list, the same organisation, or the
    same exception. *)
Theorem reads_repeat (d : Database) (organisation_id : Z) :
  snd (get_db get_organisations d) = d
  /\ snd (get_db (get_organisation organisation_id) d) = d
  /\ fst (get_db get_organisations (snd (get_db get_organisations d))) =
     fst (get_db get_organisations d)
  /\ fst (get_db (get_organisation organisation_id)
            (snd (get_db (get_organisation organisation_id) d))) =
     fst (get_db (get_organisation organisation_id) d).
Proof.
  rewrite !get_organisations_run, !get_organisation_run. cbn [fst snd].
  repeat split.
Qed.

(** C9.  When the referenced organisation is stored, [create_location]
    succeeds whatever the latitude and longitude are, values outside
    [-90, 90] and [-180, 180] included: the row it returns and appends to
    the Location table has the coordinates of the request as they came. *)
Theorem create_location_any_coordinates (d : Database) (body : CreateLocation.t) :
  organisation_exists (CreateLocation.organisation_id body) d ->
  exists ident,
    let row := {| Location.id := Some ident;
                  Location.name := CreateLocation.name body;
                  Location.latitude := CreateLocation.latitude body;
                  Location.longitude := CreateLocation.longitude body;
                  Location.organisation_id :=
                    CreateLocation.organisation_id body |} in
    get_db (create_location body) d =
    (inr row,
     {| organisation_table := organisation_table d;
        location_table := location_table d ++ [row] |}).
Proof.
  intros Hex. apply find_organisation_exists in Hex.
  destruct Hex as [o [E _]].
  exists (next_pk (map Location.id (location_table d))).
  cbv zeta. rewrite create_location_run, E. reflexivity.
Qed.

Lemma create_location_any_coordinates_witness :
  organisation_exists 1 acme_database /\
  exists ident,
    get_db (create_location far_away) acme_database =
    (inr {| Location.id := Some ident;
            Location.name := "Nowhere";
            Location.latitude := 1000%float;
            Location.longitude := (-500.5)%float;
            Location.organisation_id := 1 |},
     {| organisation_table := [acme];
        location_table :=
          [{| Location.id := Some ident;
              Location.name := "Nowhere";
              Location.latitude := 1000%float;
              Location.longitude := (-500.5)%float;
              Location.organisation_id := 1 |}] |}).
Proof.
  assert (H : organisation_exists 1 acme_database).
  { exists acme. split; [stored | reflexivity]. }
  split; [exact H |].
  exact (create_location_any_coordinates acme_database far_away H).
Defined.

(** C10.  In every store reached from the empty store by any sequence of
    the five operations, each Location row refers to an Organisation row
    that is stored. *)
Theorem reachable_referential_integrity (d : Database) :
  reachable d -> referential_integrity d.
Proof.
  induction 1 as [| op d _ IH].
  - each_row.
  - apply serve_preserves_integrity. exact IH.
Qed.

Lemma reachable_referential_integrity_witness :
  reachable hq_database /\ referential_integrity hq_database.
Proof.
  assert (H : reachable hq_database).
  { change hq_database
      with (serve (POST_create_locations hq_of_organisation_1)
              (serve (POST_create create_acme) empty_database)).
    apply reachable_serve, reachable_serve, reachable_empty. }
  split; [exact H |].
  exact (reachable_referential_integrity hq_database H).
Defined.

(** ** Further properties of the handlers *)

Local Open Scope list_scope.

(** What one request adds to the tables. *)
Lemma serve_appends (op : Operation) (d : Database) :
  exists (organisations : list Organisation.t) (locations : list Location.t),
    organisation_table (serve op d) = (organisation_table d ++ organisations)%list
    /\ location_table (serve op d) = (location_table d ++ locations)%list
    /\ List.length organisations = (if is_POST_create op then 1 else 0)%nat
    /\ (List.length locations <= if is_POST_create_locations op then 1 else 0)%nat.
Proof.
  destruct op as [body | | ident | body | ident bounding_box]; cbn [serve].
  - rewrite create_organisation_run. cbn.
    exists [new_organisation body d], []. rewrite app_nil_r. auto.
  - rewrite get_organisations_run. cbn.
    exists [], []. rewrite !app_nil_r. auto.
  - rewrite get_organisation_run. cbn.
    exists [], []. rewrite !app_nil_r. auto.
  - rewrite create_location_run.
    destruct (find _ (organisation_table d)); cbn.
    + exists [], [new_location body d]. rewrite app_nil_r. auto.
    + exists [], []. rewrite !app_nil_r. auto.
  - rewrite get_organisation_locations_run. cbn.
    exists [], []. rewrite !app_nil_r. auto.
Qed.


(** X2.  The three GET handlers write nothing, whether they return or
    raise: a sequence of GET requests leaves the store as it was. *)
Theorem gets_change_nothing (ops : list Operation) (d : Database) :
  forallb is_GET ops = true -> serve_all ops d = d.
Proof.
  induction ops as [| op ops IH]; cbn [forallb serve_all]; [reflexivity |].
  intros H. apply andb_true_iff in H. destruct H as [Hop Hops].
  destruct op as [body | | ident | body | ident bounding_box];
    try discriminate; cbn [serve].
  - rewrite get_organisations_run. exact (IH Hops).
  - rewrite get_organisation_run. exact (IH Hops).
  - rewrite get_organisation_locations_run. exact (IH Hops).
Qed.

Lemma gets_change_nothing_witness :
  serve_all [GET_locations 1 (Some away_from_hq); GET_organisation 2;
             GET_all; GET_locations 1 None] hq_database = hq_database.
Proof.
  apply (gets_change_nothing
           [GET_locations 1 (Some away_from_hq); GET_organisation 2;
            GET_all; GET_locations 1 None] hq_database).
  reflexivity.
Defined.



(** X4.  Creating an organisation disturbs nothing that was there: an
    identifier that [get_organisation] resolved before resolves to the same
    row afterwards, and the outcome of [get_organisation_locations] is the
    same for every organisation and box. *)
Theorem create_organisation_keeps_the_rest
    (d : Database) (body : CreateOrganisation.t) :
  (forall organisation_id o,
      fst (get_db (get_organisation organisation_id) d) = inr o ->
      fst (get_db (get_organisation organisation_id)
             (snd (get_db (create_organisation body) d))) = inr o)
  /\ (forall organisation_id bounding_box,
         fst (get_db (get_organisation_locations organisation_id bounding_box)
                (snd (get_db (create_organisation body) d))) =
         fst (get_db (get_organisation_locations organisation_id bounding_box) d)).
Proof.
  rewrite create_organisation_run. cbn [snd]. split.
  - intros ident o. rewrite !get_organisation_run.
    cbn [fst organisation_table]. rewrite find_app.
    destruct (find _ (organisation_table d)); [auto | discriminate].
  - intros ident bounding_box. rewrite !get_organisation_locations_outcome.
    reflexivity.
Qed.

Lemma create_organisation_keeps_the_rest_witness :
  fst (get_db (get_organisation 1) hq_database) = inr acme
  /\ fst (get_db (get_organisation 1)
            (snd (get_db (create_organisation create_acme) hq_database))) =
     inr acme.
Proof.
  assert (H : fst (get_db (get_organisation 1) hq_database) = inr acme)
    by reflexivity.
  split; [exact H |].
  exact (proj1 (create_organisation_keeps_the_rest hq_database create_acme)
           1 acme H).
Defined.


(** X6.  In a store whose locations refer to stored organisations, an
    organisation that has just been created has no location, so listing its
    locations, with any box or none, raises the 404 exception of the
    listing. *)
Theorem created_organisation_has_no_location
    (d : Database) (body : CreateOrganisation.t)
    (bounding_box : option BoundingBox) :
  referential_integrity d ->
  exists created ident,
    fst (get_db (create_organisation body) d) = inr created
    /\ Organisation.id created = Some ident
    /\ fst (get_db (get_organisation_locations ident bounding_box)
              (snd (get_db (create_organisation body) d))) =
       inl (HTTPException 404
              "No locations found for this organisation within the specified bounding box.").
Proof.
  intros Hri.
  exists (new_organisation body d),
    (next_pk (map Organisation.id (organisation_table d))).
  rewrite create_organisation_run. cbn [fst snd]. repeat split.
  rewrite get_organisation_locations_outcome, no_location_of_organisation;
    [reflexivity |].
  cbn [location_table]. intros l Hin Hid.
  destruct (Hri l Hin) as [o [Ho Hido]].
  apply (in_map Organisation.id) in Ho. rewrite Hido, Hid in Ho.
  destruct (next_pk_fresh _ Ho).
Qed.

Lemma created_organisation_has_no_location_witness :
  referential_integrity hq_database
  /\ exists created ident,
       fst (get_db (create_organisation create_acme) hq_database) = inr created
       /\ Organisation.id created = Some ident
       /\ fst (get_db (get_organisation_locations ident None)
                 (snd (get_db (create_organisation create_acme) hq_database))) =
          inl (HTTPException 404
                 "No locations found for this organisation within the specified bounding box.").
Proof.
  assert (H : referential_integrity hq_database).
  { each_row. exists acme. split; [stored | reflexivity]. }
  split; [exact H |].
  exact (created_organisation_has_no_location hq_database create_acme None H).
Defined.

(** X7.  Names are not keys: two organisations created one after the
    other, with different names or the same, get different identifiers, and
    [get_organisation] on the store afterwards gives each one back under
    its own. *)
Theorem create_organisation_twice
    (d : Database) (first second : CreateOrganisation.t) :
  exists ident1 ident2,
    let one := {| Organisation.id := Some ident1;
                  Organisation.name := CreateOrganisation.name first |} in
    let two := {| Organisation.id := Some ident2;
                  Organisation.name := CreateOrganisation.name second |} in
    let d1 := snd (get_db (create_organisation first) d) in
    let d2 := snd (get_db (create_organisation second) d1) in
    fst (get_db (create_organisation first) d) = inr one
    /\ fst (get_db (create_organisation second) d1) = inr two
    /\ ident1 <> ident2
    /\ fst (get_db (get_organisation ident1) d2) = inr one
    /\ fst (get_db (get_organisation ident2) d2) = inr two.
Proof.
  exists (next_pk (map Organisation.id (organisation_table d))),
    (next_pk (map Organisation.id
                (organisation_table d ++ [new_organisation first d]))).
  cbv zeta. rewrite !create_organisation_run. cbn [fst snd organisation_table].
  assert (Hlt : next_pk (map Organisation.id (organisation_table d)) <
                next_pk (map Organisation.id
                           (organisation_table d ++ [new_organisation first d]))).
  { apply next_pk_above. rewrite map_app. apply in_or_app. right.
    left. reflexivity. }
  repeat split.
  - lia.
  - rewrite get_organisation_run. cbn [fst organisation_table].
    rewrite !find_app, find_next_pk. simpl. rewrite Z.eqb_refl. reflexivity.
  - rewrite get_organisation_run. cbn [fst organisation_table].
    rewrite find_app, find_next_pk. simpl. rewrite Z.eqb_refl. reflexivity.
Qed.

(** The matching rows of a table that got one more row. *)
Lemma locations_matching_append
    (organisation_id : Z) (bounding_box : option BoundingBox)
    (organisations : list Organisation.t) (locations : list Location.t)
    (l : Location.t) :
  locations_matching organisation_id bounding_box
    {| organisation_table := organisations;
       location_table := locations ++ [l] |} =
  locations_matching organisation_id bounding_box
    {| organisation_table := organisations; location_table := locations |}
  ++ (if Z.eqb (Location.organisation_id l) organisation_id
         && in_bounding_boxb bounding_box l
      then [l] else []).
Proof.
  unfold locations_matching. cbn [location_table]. rewrite filter_app.
  cbn [filter].
  destruct (Z.eqb (Location.organisation_id l) organisation_id
            && in_bounding_boxb bounding_box l); reflexivity.
Qed.

(** X8.  [create_location] never touches the Organisation table: whether
    it returns or raises, [get_organisations] and [get_organisation] have
    the same outcomes afterwards as before. *)
Theorem create_location_keeps_organisations
    (d : Database) (body : CreateLocation.t) :
  organisation_table (snd (get_db (create_location body) d)) =
  organisation_table d
  /\ fst (get_db get_organisations (snd (get_db (create_location body) d))) =
     fst (get_db get_organisations d)
  /\ (forall organisation_id,
         fst (get_db (get_organisation organisation_id)
                (snd (get_db (create_location body) d))) =
         fst (get_db (get_organisation organisation_id) d)).
Proof.
  assert (H : organisation_table (snd (get_db (create_location body) d)) =
              organisation_table d).
  { rewrite create_location_run.
    destruct (find _ (organisation_table d)); reflexivity. }
  repeat split.
  - exact H.
  - rewrite !get_organisations_run. cbn [fst]. rewrite H. reflexivity.
  - intros ident. rewrite !get_organisation_run. cbn [fst].
    rewrite H. reflexivity.
Qed.

(** X9.  A location created for one organisation does not show in the
    listing of another: for an organisation other than the one of the
    request, [get_organisation_locations] has the same outcome after
    [create_location] as before. *)
Theorem create_location_keeps_other_listings
    (d : Database) (body : CreateLocation.t)
    (organisation_id : Z) (bounding_box : option BoundingBox) :
  organisation_id <> CreateLocation.organisation_id body ->
  fst (get_db (get_organisation_locations organisation_id bounding_box)
         (snd (get_db (create_location body) d))) =
  fst (get_db (get_organisation_locations organisation_id bounding_box) d).
Proof.
  intros Hother. rewrite create_location_run.
  destruct (find _ (organisation_table d)); [| reflexivity].
  cbn [snd]. rewrite !get_organisation_locations_outcome. cbn [fst].
  rewrite locations_matching_append. cbn [new_location Location.organisation_id].
  destruct (Z.eqb_spec (CreateLocation.organisation_id body) organisation_id)
    as [E | _]; [destruct (Hother (eq_sym E)) |].
  cbn [andb]. rewrite app_nil_r. destruct d; reflexivity.
Qed.

Lemma create_location_keeps_other_listings_witness :
  fst (get_db (get_organisation_locations 1 None)
         (snd (get_db (create_location hq_of_organisation_2)
                 {| organisation_table :=
                      [acme; {| Organisation.id := Some 2;
                                Organisation.name := "Umbrella" |}];
                    location_table := [hq] |}))) =
  inr [hq].
Proof.
  rewrite (create_location_keeps_other_listings
             {| organisation_table :=
                  [acme; {| Organisation.id := Some 2;
                            Organisation.name := "Umbrella" |}];
                location_table := [hq] |}
             hq_of_organisation_2 1 None).
  - reflexivity.
  - simpl. discriminate.
Defined.



(** X11.  Locations are not deduplicated: the same create-location request
    served twice, its organisation being stored, returns two locations with
    different identifiers and the same name, coordinates and organisation,
    and both are stored afterwards. *)
Theorem create_location_twice (d : Database) (body : CreateLocation.t) :
  organisation_exists (CreateLocation.organisation_id body) d ->
  exists ident1 ident2,
    let location_of ident :=
      {| Location.id := Some ident;
         Location.name := CreateLocation.name body;
         Location.latitude := CreateLocation.latitude body;
         Location.longitude := CreateLocation.longitude body;
         Location.organisation_id := CreateLocation.organisation_id body |} in
    let d1 := snd (get_db (create_location body) d) in
    let d2 := snd (get_db (create_location body) d1) in
    fst (get_db (create_location body) d) = inr (location_of ident1)
    /\ fst (get_db (create_location body) d1) = inr (location_of ident2)
    /\ ident1 <> ident2
    /\ location_table d2 =
       location_table d ++ [location_of ident1; location_of ident2].
Proof.
  intros Hex. apply find_organisation_exists in Hex.
  destruct Hex as [o [E _]].
  exists (next_pk (map Location.id (location_table d))),
    (next_pk (map Location.id (location_table d ++ [new_location body d]))).
  cbv zeta. rewrite (create_location_run body d), E. cbn [fst snd].
  rewrite create_location_run. cbn [organisation_table location_table].
  rewrite E. cbn [fst snd location_table].
  assert (Hlt : next_pk (map Location.id (location_table d)) <
                next_pk (map Location.id
                           (location_table d ++ [new_location body d]))).
  { apply next_pk_above. rewrite map_app. apply in_or_app. right.
    left. reflexivity. }
  repeat split.
  - lia.
  - rewrite <- app_assoc. reflexivity.
Qed.

Lemma create_location_twice_witness :
  organisation_exists 1 acme_database
  /\ exists ident1 ident2,
       ident1 <> ident2
       /\ location_table
            (snd (get_db (create_location hq_of_organisation_1)
                    (snd (get_db (create_location hq_of_organisation_1)
                            acme_database)))) =
          [{| Location.id := Some ident1;
              Location.name := "HQ";
              Location.latitude := 51.5%float;
              Location.longitude := (-0.125)%float;
              Location.organisation_id := 1 |};
           {| Location.id := Some ident2;
              Location.name := "HQ";
              Location.latitude := 51.5%float;
              Location.longitude := (-0.125)%float;
              Location.organisation_id := 1 |}].
Proof.
  assert (H : organisation_exists 1 acme_database).
  { exists acme. split; [stored | reflexivity]. }
  split; [exact H |].
  destruct (create_location_twice acme_database hq_of_organisation_1 H)
    as (ident1 & ident2 & _ & _ & Hdiffer & Htable).
  exists ident1, ident2. split; [exact Hdiffer | exact Htable].
Defined.

Lemma filter_both {T} (f g : T -> bool) (l : list T) :
  filter (fun x => f x && g x) l = filter g (filter f l).
Proof.
  induction l as [| x l IH]; [reflexivity |].
  cbn [filter]. destruct (f x); cbn [andb filter].
  - destruct (g x); [f_equal |]; exact IH.
  - exact IH.
Qed.

(** X12.  The box only narrows the listing: when the listing with a box
    returns, the listing without a box returns too, and the former is the
    latter restricted to the rows in the box, in the same order; when the
    listing without a box raises, it raises with every box. *)
Theorem box_narrows_listing
    (d : Database) (organisation_id : Z) (box : BoundingBox) :
  (forall inside,
      fst (get_db (get_organisation_locations organisation_id (Some box)) d) =
      inr inside ->
      exists every,
        fst (get_db (get_organisation_locations organisation_id None) d) =
        inr every
        /\ inside = filter (in_bounding_boxb (Some box)) every)
  /\ (forall e,
         fst (get_db (get_organisation_locations organisation_id None) d) =
         inl e ->
         fst (get_db (get_organisation_locations organisation_id (Some box)) d) =
         inl e).
Proof.
  assert (Hfilter :
    locations_matching organisation_id (Some box) d =
    filter (in_bounding_boxb (Some box))
      (locations_matching organisation_id None d)).
  { unfold locations_matching. rewrite filter_both. f_equal.
    apply filter_ext. intros l. cbn [in_bounding_boxb].
    rewrite andb_true_r. reflexivity. }
  rewrite !get_organisation_locations_outcome. cbn [fst]. split.
  - intros inside Hinside. rewrite Hfilter in Hinside.
    destruct (locations_matching organisation_id None d) as [| l ls].
    + discriminate.
    + exists (l :: ls). split; [reflexivity |].
      destruct (filter _ (l :: ls)); [discriminate |].
      injection Hinside as <-. reflexivity.
  - intros e He. rewrite Hfilter.
    destruct (locations_matching organisation_id None d); [| discriminate].
    exact He.
Qed.

Lemma box_narrows_listing_witness :
  fst (get_db (get_organisation_locations 1 (Some around_hq))
         (snd (get_db (create_location far_away) hq_database))) = inr [hq]
  /\ exists every,
       fst (get_db (get_organisation_locations 1 None)
              (snd (get_db (create_location far_away) hq_database))) =
       inr every
       /\ [hq] = filter (in_bounding_boxb (Some around_hq)) every.
Proof.
  assert (H : fst (get_db (get_organisation_locations 1 (Some around_hq))
                     (snd (get_db (create_location far_away) hq_database))) =
              inr [hq]) by reflexivity.
  split; [exact H |].
  exact (proj1 (box_narrows_listing
                  (snd (get_db (create_location far_away) hq_database))
                  1 around_hq) [hq] H).
Defined.

(** X13.  Every stored location can be listed: the listing of its
    organisation without a box returns, and the location is in the list. *)
Theorem stored_location_is_listed (d : Database) (l : Location.t) :
  In l (location_table d) ->
  exists locations,
    fst (get_db (get_organisation_locations (Location.organisation_id l) None) d) =
    inr locations
    /\ In l locations.
Proof.
  intros Hin.
  assert (Hl : In l (locations_matching (Location.organisation_id l) None d)).
  { apply in_locations_matching. repeat split. exact Hin. }
  rewrite get_organisation_locations_outcome. cbn [fst].
  destruct (locations_matching (Location.organisation_id l) None d) as [| x xs].
  - destruct Hl.
  - exists (x :: xs). split; [reflexivity | exact Hl].
Qed.

Lemma stored_location_is_listed_witness :
  In hq (location_table hq_database)
  /\ exists locations,
       fst (get_db (get_organisation_locations 1 None) hq_database) =
       inr locations
       /\ In hq locations.
Proof.
  assert (H : In hq (location_table hq_database)) by stored.
  split; [exact H |].
  exact (stored_location_is_listed hq_database hq H).
Defined.

(** A float that equals itself is at most itself. *)
Lemma leb_of_eqb (x y : float) :
  PrimFloat.eqb x y = true -> PrimFloat.leb x y = true.
Proof.
  rewrite eqb_spec, leb_spec. unfold SFeqb, SFleb.
  destruct (SFcompare (Prim2SF x) (Prim2SF y)) as [[| |] |];
    first [reflexivity | discriminate].
Qed.

(** X14.  The bounds of the box belong to it: the listing under the box
    whose minimum and maximum are the coordinates of a stored location
    returns, and the location is in the list, provided neither coordinate
    is a NaN. *)
Theorem location_on_the_bounds_is_listed (d : Database) (l : Location.t) :
  In l (location_table d) ->
  is_nan (Location.latitude l) = false ->
  is_nan (Location.longitude l) = false ->
  exists locations,
    fst (get_db (get_organisation_locations (Location.organisation_id l)
                   (Some (point_of l))) d) = inr locations
    /\ In l locations.
Proof.
  intros Hin Hlat Hlon.
  unfold is_nan in Hlat, Hlon. apply negb_false_iff in Hlat, Hlon.
  apply leb_of_eqb in Hlat, Hlon.
  assert (Hl : In l (locations_matching (Location.organisation_id l)
                       (Some (point_of l)) d)).
  { apply in_locations_matching. repeat split; assumption. }
  rewrite get_organisation_locations_outcome. cbn [fst].
  destruct (locations_matching (Location.organisation_id l)
              (Some (point_of l)) d) as [| x xs].
  - destruct Hl.
  - exists (x :: xs). split; [reflexivity | exact Hl].
Qed.

Lemma location_on_the_bounds_is_listed_witness :
  exists locations,
    fst (get_db (get_organisation_locations 1
                   (Some (51.5, -0.125, 51.5, -0.125)%float)) hq_database) =
    inr locations
    /\ In hq locations.
Proof.
  apply (location_on_the_bounds_is_listed hq_database hq).
  - stored.
  - reflexivity.
  - reflexivity.
Defined.

(** X15.  In every store reached from the empty one by the five
    operations, each row has an identifier and no two rows of a table have
    the same: the handlers never set an identifier themselves and never
    rewrite a row. *)
Theorem reachable_identifiers_unique (d : Database) :
  reachable d ->
  (forall a b,
      In a (organisation_table d) -> In b (organisation_table d) ->
      Organisation.id a = Organisation.id b -> a = b)
  /\ (forall a b,
         In a (location_table d) -> In b (location_table d) ->
         Location.id a = Location.id b -> a = b)
  /\ (forall o, In o (organisation_table d) -> Organisation.id o <> None)
  /\ (forall l, In l (location_table d) -> Location.id l <> None).
Proof.
  intros Hreach. apply reachable_well_keyed in Hreach.
  destruct Hreach as (Ho & Hl & Hos & Hls). repeat split.
  - intros a b. apply (unique_pk_row Organisation.id _ a b Ho).
  - intros a b. apply (unique_pk_row Location.id _ a b Hl).
  - intros o Hin Hnone. apply Hos. rewrite <- Hnone.
    apply in_map. exact Hin.
  - intros l Hin Hnone. apply Hls. rewrite <- Hnone.
    apply in_map. exact Hin.
Qed.

Lemma hq_database_reachable : reachable hq_database.
Proof.
  change hq_database
    with (serve (POST_create_locations hq_of_organisation_1)
            (serve (POST_create create_acme) empty_database)).
  apply reachable_serve, reachable_serve, reachable_empty.
Defined.

Lemma reachable_identifiers_unique_witness :
  reachable hq_database
  /\ (forall o, In o (organisation_table hq_database) ->
                Organisation.id o <> None)
  /\ (forall l, In l (location_table hq_database) -> Location.id l <> None).
Proof.
  split; [exact hq_database_reachable |].
  destruct (reachable_identifiers_unique hq_database hq_database_reachable)
    as (_ & _ & Hos & Hls).
  split; [exact Hos | exact Hls].
Defined.

(** X16.  Listing and fetching agree in every reachable store: the
    organisations that [get_organisations] returns are exactly the ones
    that [get_organisation] returns for some identifier, and each comes
    back under its own identifier as the row that was listed. *)
Theorem listed_organisations_are_fetched (d : Database) :
  reachable d ->
  exists organisations,
    fst (get_db get_organisations d) = inr organisations
    /\ (forall o,
           In o organisations <->
           exists ident,
             Organisation.id o = Some ident
             /\ fst (get_db (get_organisation ident) d) = inr o).
Proof.
  intros Hreach. apply reachable_well_keyed in Hreach.
  destruct Hreach as (Ho & _ & Hos & _).
  exists (organisation_table d). rewrite get_organisations_run.
  split; [reflexivity |]. intros o. split.
  - intros Hin.
    destruct (Organisation.id o) as [ident |] eqn:Hid.
    + exists ident. split; [reflexivity |].
      rewrite get_organisation_run. cbn [fst].
      destruct (find_organisation_exists ident d) as (found & E & Hin' & Hid').
      { exists o. auto. }
      rewrite E. f_equal.
      apply (unique_pk_row Organisation.id (organisation_table d)); auto.
      congruence.
    + exfalso. apply Hos. rewrite <- Hid. apply in_map. exact Hin.
  - intros (ident & Hid & Hget).
    rewrite get_organisation_run in Hget. cbn [fst] in Hget.
    destruct (find _ (organisation_table d)) as [found |] eqn:E;
      [| discriminate].
    injection Hget as ->. apply find_some in E. exact (proj1 E).
Qed.

Lemma listed_organisations_are_fetched_witness :
  reachable hq_database
  /\ exists organisations,
       fst (get_db get_organisations hq_database) = inr organisations
       /\ (forall o,
              In o organisations <->
              exists ident,
                Organisation.id o = Some ident
                /\ fst (get_db (get_organisation ident) hq_database) = inr o).
Proof.
  split; [exact hq_database_reachable |].
  exact (listed_organisations_are_fetched hq_database hq_database_reachable).
Defined.

(** The tables after a sequence of requests extend the tables before. *)
Lemma serve_all_extends (ops : list Operation) (d : Database) :
  exists (organisations : list Organisation.t) (locations : list Location.t),
    organisation_table (serve_all ops d) = organisation_table d ++ organisations
    /\ location_table (serve_all ops d) = location_table d ++ locations.
Proof.
  revert d. induction ops as [| op ops IH]; intros d; cbn [serve_all].
  - exists [], []. rewrite !app_nil_r. auto.
  - destruct (IH (serve op d)) as (os & ls & Ho & Hl).
    destruct (serve_appends op d) as (os1 & ls1 & Ho1 & Hl1 & _).
    exists (os1 ++ os), (ls1 ++ ls).
    rewrite Ho, Hl, Ho1, Hl1, <- !app_assoc. auto.
Qed.

(** X17.  An organisation stays what it is: once [get_organisation]
    returns a row for an identifier, it returns that same row for it after
    any sequence of further requests. *)
Theorem organisation_stays_fetched
    (d : Database) (organisation_id : Z) (o : Organisation.t)
    (ops : list Operation) :
  fst (get_db (get_organisation organisation_id) d) = inr o ->
  fst (get_db (get_organisation organisation_id) (serve_all ops d)) = inr o.
Proof.
  rewrite !get_organisation_run. cbn [fst].
  destruct (serve_all_extends ops d) as (os & _ & Ho & _).
  rewrite Ho, find_app.
  destruct (find _ (organisation_table d)); [auto | discriminate].
Qed.

Lemma organisation_stays_fetched_witness :
  fst (get_db (get_organisation 1) acme_database) = inr acme
  /\ fst (get_db (get_organisation 1)
            (serve_all [POST_create create_acme;
                        POST_create_locations hq_of_organisation_1;
                        GET_locations 1 None;
                        POST_create create_acme] acme_database)) = inr acme.
Proof.
  assert (H : fst (get_db (get_organisation 1) acme_database) = inr acme)
    by reflexivity.
  split; [exact H |].
  exact (organisation_stays_fetched acme_database 1 acme
           [POST_create create_acme;
            POST_create_locations hq_of_organisation_1;
            GET_locations 1 None;
            POST_create create_acme] H).
Defined.

(** X18.  A location stays listed: a stored location is in the list that
    the listing of its organisation, without a box, returns after any
    sequence of further requests. *)
Theorem location_stays_listed
    (d : Database) (l : Location.t) (ops : list Operation) :
  In l (location_table d) ->
  exists locations,
    fst (get_db (get_organisation_locations (Location.organisation_id l) None)
           (serve_all ops d)) = inr locations
    /\ In l locations.
Proof.
  intros Hin.
  destruct (serve_all_extends ops d) as (_ & ls & _ & Hl).
  assert (Hlater : In l (locations_matching (Location.organisation_id l) None
                           (serve_all ops d))).
  { apply in_locations_matching. repeat split.
    rewrite Hl. apply in_or_app. left. exact Hin. }
  rewrite get_organisation_locations_outcome. cbn [fst].
  destruct (locations_matching (Location.organisation_id l) None
              (serve_all ops d)) as [| x xs].
  - destruct Hlater.
  - exists (x :: xs). split; [reflexivity | exact Hlater].
Qed.

Lemma location_stays_listed_witness :
  In hq (location_table hq_database)
  /\ exists locations,
       fst (get_db (get_organisation_locations 1 None)
              (serve_all [POST_create_locations far_away;
                          GET_organisation 7;
                          POST_create create_acme] hq_database)) =
       inr locations
       /\ In hq locations.
Proof.
  assert (H : In hq (location_table hq_database)) by stored.
  split; [exact H |].
  exact (location_stays_listed hq_database hq
           [POST_create_locations far_away; GET_organisation 7;
            POST_create create_acme] H).
Defined.
